(** * terminal-portfolio: the terminal engine and its section formatters

    A shallow embedding of [src/core/hooks/useTerminal.ts] and of
    [utils/formatters.ts] (the version with the defensive certification and
    contact formatters), with the properties of the command pipeline stated
    and proved over it.

    Conventions.
    - A JavaScript string is the list of its UTF-16 code units, so that
      [length] is [.length] and [take] is [.slice(0, n)].
    - Content records come from JSON files and reach the formatters at type
      [any]; they are values of [JValue].
    - A formatter either returns a string or throws; every exception the
      formatters can raise is a [TypeError].
    - The hook's state setters are recorded as a sequence of operations; the
      state is what results from applying them in order.                    *)

From Stdlib Require Import NArith ZArith String Ascii DecimalString.
From stdpp Require Import base option list gmap.

Local Open Scope N_scope.

(* ================================================================== *)
(** ** JavaScript strings                                              *)
(* ================================================================== *)

Abbreviation jsstring := (list N).

(** Source literals are written as Rocq strings, which hold UTF-8 bytes;
    [utf16] turns the bytes into the code units the JavaScript engine sees. *)
Fixpoint utf16 (bs : list N) : jsstring :=
  match bs with
  | [] => []
  | b :: r =>
      if b <? 128 then b :: utf16 r
      else if b <? 224 then
        match r with
        | c :: r' => ((b - 192) * 64 + (c - 128)) :: utf16 r'
        | _ => [65533]
        end
      else if b <? 240 then
        match r with
        | c :: d :: r' =>
            ((b - 224) * 4096 + (c - 128) * 64 + (d - 128)) :: utf16 r'
        | _ => [65533]
        end
      else
        match r with
        | c :: d :: e :: r' =>
            let cp := (b - 240) * 262144 + (c - 128) * 4096
                      + (d - 128) * 64 + (e - 128) - 65536 in
            (55296 + cp / 1024) :: (56320 + cp mod 1024) :: utf16 r'
        | _ => [65533]
        end
  end.

Definition lit (s : string) : jsstring :=
  utf16 (map N_of_ascii (list_ascii_of_string s)).

(** The newline, which a Rocq literal cannot spell with an escape. *)
Definition nl : jsstring := [10].

(** A literal of markup, written with the apostrophe in place of the double
    quote. *)
Definition qlit (s : string) : jsstring :=
  map (fun c => if c =? 39 then 34 else c) (lit s).

(** [Array.prototype.join] on an array of strings. *)
Fixpoint join (sep : jsstring) (parts : list jsstring) : jsstring :=
  match parts with
  | [] => []
  | [p] => p
  | p :: rest => p ++ sep ++ join sep rest
  end.

(** [String.prototype.startsWith]. *)
Fixpoint startsWith (s pre : jsstring) {struct pre} : bool :=
  match pre, s with
  | [], _ => true
  | p :: pre', c :: s' => (p =? c) && startsWith s' pre'
  | _ :: _, [] => false
  end.

(** [String.prototype.includes]. *)
Fixpoint includes (s sub : jsstring) : bool :=
  startsWith s sub ||
  match s with
  | [] => false
  | _ :: s' => includes s' sub
  end.

(** [text.replace(/\n/g, "<br>")]. *)
Fixpoint replaceNewlines (text : jsstring) : jsstring :=
  match text with
  | [] => []
  | c :: rest =>
      (if c =? 10 then lit "<br>" else [c]) ++ replaceNewlines rest
  end.

(* ================================================================== *)
(** ** JSON values at type [any]                                       *)
(* ================================================================== *)

(** [JNum] carries an integer-valued number of magnitude below 10^21, the
    range on which number-to-string conversion is plain decimal printing.
    [JObj] lists the own properties of an object; when a key occurs twice
    the first occurrence is the property. *)
#[warnings="-register-all"]
Inductive JValue : Type :=
  | JUndefined
  | JNull
  | JBool (b : bool)
  | JNum (z : Z)
  | JStr (s : jsstring)
  | JArr (elems : list JValue)
  | JObj (props : list (jsstring * JValue)).

Inductive JSError : Type := TypeError.

Inductive Outcome (A : Type) : Type :=
  | Returns (a : A)
  | Throws (e : JSError).
Arguments Returns {A} a.
Arguments Throws {A} e.

Definition obind {A B} (m : Outcome A) (k : A -> Outcome B) : Outcome B :=
  match m with
  | Returns a => k a
  | Throws e => Throws e
  end.

Declare Scope js_scope.
Delimit Scope js_scope with js.
Notation "'let*' x ':=' m 'in' k" := (obind m (fun x => k))
  (at level 10, x name, m at level 100, k at level 200) : js_scope.
Local Open Scope js_scope.

(** [arr.map(f)] where [f] may throw: elements are visited in order. *)
Fixpoint mapM {A B} (f : A -> Outcome B) (l : list A) : Outcome (list B) :=
  match l with
  | [] => Returns []
  | x :: rest =>
      let* y := f x in
      let* ys := mapM f rest in
      Returns (y :: ys)
  end.

Definition decimal (z : Z) : jsstring :=
  lit (NilZero.string_of_int (Z.to_int z)).

(** ToString, as applied by template literals, [join] and property keys. *)
Fixpoint toJSString (v : JValue) : jsstring :=
  match v with
  | JUndefined => lit "undefined"
  | JNull => lit "null"
  | JBool true => lit "true"
  | JBool false => lit "false"
  | JNum z => decimal z
  | JStr s => s
  | JArr elems =>
      join (lit ",")
        (map (fun e => match e with
                       | JUndefined | JNull => []
                       | _ => toJSString e
                       end) elems)
  | JObj _ => lit "[object Object]"
  end.

(** ToBoolean, as applied by [?:], [||] and [if]. *)
Definition truthy (v : JValue) : bool :=
  match v with
  | JUndefined | JNull => false
  | JBool b => b
  | JNum z => negb (Z.eqb z 0)
  | JStr s => negb (bool_decide (s = []))
  | JArr _ | JObj _ => true
  end.

Fixpoint ownProp (props : list (jsstring * JValue)) (name : jsstring)
  : JValue :=
  match props with
  | [] => JUndefined
  | (k, v) :: rest => if bool_decide (k = name) then v else ownProp rest name
  end.

(** [v?.name] for the field names the formatters read.  None of them is a
    member of [Object.prototype], [Array.prototype] or [String.prototype]
    except [length], so a lookup that finds no own property is [undefined]. *)
Definition getOpt (v : JValue) (name : string) : JValue :=
  match v with
  | JObj props => ownProp props (lit name)
  | JStr s =>
      if bool_decide (lit name = lit "length")
      then JNum (Z.of_nat (length s)) else JUndefined
  | JArr elems =>
      if bool_decide (lit name = lit "length")
      then JNum (Z.of_nat (length elems)) else JUndefined
  | _ => JUndefined
  end.

(** [v.name]: reading a property of [undefined] or [null] throws. *)
Definition get (v : JValue) (name : string) : Outcome JValue :=
  match v with
  | JUndefined | JNull => Throws TypeError
  | _ => Returns (getOpt v name)
  end.

(** [v.map(f)]: only arrays have a [map] method among JSON values. *)
Definition jsMap {B} (v : JValue) (f : JValue -> Outcome B)
  : Outcome (list B) :=
  match v with
  | JArr elems => mapM f elems
  | _ => Throws TypeError
  end.

(** [v.join(sep)] on a JSON value. *)
Definition jsJoin (v : JValue) (sep : jsstring) : Outcome jsstring :=
  match v with
  | JArr elems =>
      Returns (join sep
        (map (fun e => match e with
                       | JUndefined | JNull => []
                       | _ => toJSString e
                       end) elems))
  | _ => Throws TypeError
  end.

(** What the JavaScript engine supplies: the Unicode upper-casing of
    [String.prototype.toUpperCase], and the source text that
    [Function.prototype.toString] gives for a built-in function, which the
    language leaves to the implementation. *)
Class Host := {
  toUpperCase : jsstring -> jsstring;
  nativeFunctionSource : jsstring -> jsstring
}.

(* ================================================================== *)
(** ** utils/formatters.ts                                             *)
(* ================================================================== *)

Section Formatters.
Context `{Host}.

(** The members every object literal inherits from [Object.prototype]:
    the accessor [__proto__], which yields the prototype object itself, and
    the built-in methods. *)
Definition objectPrototypeMethods : list jsstring :=
  map lit
    [ "constructor"; "hasOwnProperty"; "isPrototypeOf";
      "propertyIsEnumerable"; "toLocaleString"; "toString"; "valueOf";
      "__defineGetter__"; "__defineSetter__"; "__lookupGetter__";
      "__lookupSetter__" ]%string.

Inductive Member : Type :=
  | OwnString (s : jsstring)
  | PrototypeObject
  | BuiltinMethod (name : jsstring)
  | NoMember.

Definition memberTruthy (m : Member) : bool :=
  match m with
  | OwnString s => truthy (JStr s)
  | PrototypeObject | BuiltinMethod _ => true
  | NoMember => false
  end.

Definition memberToString (m : Member) : jsstring :=
  match m with
  | OwnString s => s
  | PrototypeObject => lit "[object Object]"
  | BuiltinMethod name => nativeFunctionSource name
  | NoMember => lit "undefined"
  end.

(** [table[key]] on an object literal whose own properties are [table]. *)
Definition literalLookup (table : gmap jsstring jsstring) (key : jsstring)
  : Member :=
  match table !! key with
  | Some s => OwnString s
  | None =>
      if bool_decide (key = lit "__proto__") then PrototypeObject
      else if bool_decide (key ∈ objectPrototypeMethods)
           then BuiltinMethod key
      else NoMember
  end.

Definition colors : gmap jsstring jsstring :=
  list_to_map
    [ (lit "green", lit "#00ff00");
      (lit "orange", lit "#ff9900");
      (lit "red", lit "#ff3333");
      (lit "blue", lit "#3399ff");
      (lit "yellow", lit "#ffff66");
      (lit "white", lit "#ffffff") ].

Definition colorIcon (icon color : JValue) : jsstring :=
  let found := literalLookup colors (toJSString color) in
  let hex := if memberTruthy found then memberToString found
             else lit "#ffffff" in
  qlit "<span style='color:" ++ hex ++ qlit "'>" ++ toJSString icon
    ++ lit "</span>".

Definition sectionSeparator : jsstring :=
  lit "-----------------------------------------".

(** [v.toUpperCase()]: only strings have the method among JSON values. *)
Definition jsToUpperCase (v : JValue) : Outcome jsstring :=
  match v with
  | JStr s => Returns (toUpperCase s)
  | _ => Throws TypeError
  end.

(** A template hole [${x.name}]. *)
Definition hole (x : JValue) (name : string) : Outcome jsstring :=
  let* v := get x name in
  Returns (toJSString v).

(** The section title line [=== ${data.title.toUpperCase()} ===]. *)
Definition titleLine (data : JValue) : Outcome jsstring :=
  let* title := get data "title" in
  let* upper := jsToUpperCase title in
  Returns (lit "=== " ++ upper ++ lit " ===").

Definition formatWhoami (data : JValue) : Outcome jsstring :=
  let* name := hole data "name" in
  let* role := hole data "role" in
  let* text := hole data "text" in
  Returns (nl ++ lit "Nombre: " ++ name ++ nl
           ++ lit "Rol: " ++ role ++ nl
           ++ nl
           ++ text ++ nl).

(** [`${indent}${colorIcon(item.icon, item.color)} ${item.text}`] *)
Definition iconLine (indent : jsstring) (item : JValue) : Outcome jsstring :=
  let* icon := get item "icon" in
  let* color := get item "color" in
  let* text := hole item "text" in
  Returns (indent ++ colorIcon icon color ++ lit " " ++ text).

(** [`${indent}${t.icon ? colorIcon(t.icon, t.color) : "-"} ${t.text}`] *)
Definition optIconLine (indent : jsstring) (t : JValue) : Outcome jsstring :=
  let* icon := get t "icon" in
  let* mark := (if truthy icon
                then let* icon' := get t "icon" in
                     let* color := get t "color" in
                     Returns (colorIcon icon' color)
                else Returns (lit "-")) in
  let* text := hole t "text" in
  Returns (indent ++ mark ++ lit " " ++ text).

(** [list.map(line).join(sep)] *)
Definition mapJoin (list : JValue) (line : JValue -> Outcome jsstring)
    (sep : jsstring) : Outcome jsstring :=
  let* lines := jsMap list line in
  Returns (join sep lines).

Definition formatPerfil (data : JValue) : Outcome jsstring :=
  let* specializationList := get data "specialization" in
  let* specialization := mapJoin specializationList (iconLine []) nl in
  let* goalsList := get data "goals" in
  let* goals := mapJoin goalsList (iconLine []) nl in
  let* title := titleLine data in
  let* description := hole data "description" in
  Returns (nl ++ title ++ nl
           ++ nl
           ++ description ++ nl
           ++ nl
           ++ lit "=== ESPECIALIZACIÓN ===" ++ nl
           ++ specialization ++ nl
           ++ nl
           ++ lit "=== OBJETIVOS ===" ++ nl
           ++ goals ++ nl).

Definition estudiosItem (item : JValue) : Outcome jsstring :=
  let* id := hole item "id" in
  let* titulo := hole item "titulo" in
  let* inicio := hole item "inicio" in
  let* fin := hole item "fin" in
  let* centro := hole item "centro" in
  let* ubicacion := hole item "ubicacion" in
  let* temasList := get item "temas" in
  let* temas := mapJoin temasList (optIconLine (lit "     ")) nl in
  Returns (nl ++ id ++ lit " " ++ titulo
              ++ lit " (" ++ inicio ++ lit " - " ++ fin ++ lit ")" ++ nl
           ++ lit "     • Centro: " ++ centro ++ nl
           ++ lit "     • Ubicación: " ++ ubicacion ++ nl
           ++ temas ++ nl).

Definition formatEstudios (data : JValue) : Outcome jsstring :=
  let* title := titleLine data in
  let* itemsList := get data "items" in
  let* items := mapJoin itemsList estudiosItem nl in
  Returns (nl ++ title ++ nl
           ++ items ++ nl).

(** [`     ${colorIcon(group.icon, group.color)} ${group.title}:
      ${group.items.join(", ")}`] *)
Definition stackLine (group : JValue) : Outcome jsstring :=
  let* icon := get group "icon" in
  let* color := get group "color" in
  let* title := hole group "title" in
  let* itemsList := get group "items" in
  let* items := jsJoin itemsList (lit ", ") in
  Returns (lit "     " ++ colorIcon icon color ++ lit " " ++ title
           ++ lit ": " ++ items).

Definition experienciaItem (item : JValue) : Outcome jsstring :=
  let* id := hole item "id" in
  let* puesto := hole item "puesto" in
  let* inicio := hole item "inicio" in
  let* fin := hole item "fin" in
  let* empresa := hole item "empresa" in
  let* ubicacion := hole item "ubicacion" in
  let* respList := get item "responsabilidades" in
  let* responsabilidades := mapJoin respList (optIconLine (lit "     ")) nl in
  let* logrosList := get item "logros" in
  let* logros := mapJoin logrosList (iconLine (lit "     ")) nl in
  let* stackList := get item "stackGroups" in
  let* stack := mapJoin stackList stackLine nl in
  Returns (nl ++ id ++ lit " " ++ puesto
              ++ lit " (" ++ inicio ++ lit " - " ++ fin ++ lit ")" ++ nl
           ++ lit "     • Empresa: " ++ empresa ++ nl
           ++ lit "     • Ubicación: " ++ ubicacion ++ nl
           ++ nl
           ++ lit "     • Responsabilidades:" ++ nl
           ++ responsabilidades ++ nl
           ++ nl
           ++ lit "     • Logros:" ++ nl
           ++ logros ++ nl
           ++ nl
           ++ lit "     • Stack:" ++ nl
           ++ stack ++ nl).

Definition formatExperiencia (data : JValue) : Outcome jsstring :=
  let* title := titleLine data in
  let* itemsList := get data "items" in
  let* items := mapJoin itemsList experienciaItem nl in
  Returns (nl ++ title ++ nl
           ++ items ++ nl).

Definition skillsCategory (cat : JValue) : Outcome jsstring :=
  let* nombre := hole cat "nombre" in
  let* itemsList := get cat "items" in
  let* items := mapJoin itemsList (optIconLine []) nl in
  Returns (nl ++ nombre ++ nl
           ++ items ++ nl).

Definition formatSkills (data : JValue) : Outcome jsstring :=
  let* title := titleLine data in
  let* categoriasList := get data "categorias" in
  let* categorias := mapJoin categoriasList skillsCategory nl in
  Returns (nl ++ title ++ nl
           ++ categorias ++ nl).

(** The helpers [safeList] and [safeStr] local to the two defensive
    formatters. *)
Definition safeList (v : JValue) : list JValue :=
  match v with
  | JArr elems => elems
  | _ => []
  end.

Definition safeStr (v : JValue) : jsstring :=
  match v with
  | JStr s => s
  | _ => []
  end.

(** [s || fallback] on strings. *)
Definition orElse (s fallback : jsstring) : jsstring :=
  if truthy (JStr s) then s else fallback.

(** [x?.icon ? colorIcon(x.icon, x.color) : "-"] *)
Definition safeIcon (x : JValue) : Outcome jsstring :=
  if truthy (getOpt x "icon")
  then let* icon := get x "icon" in
       let* color := get x "color" in
       Returns (colorIcon icon color)
  else Returns (lit "-").

Definition renderCert (c : JValue) : Outcome jsstring :=
  let nombre := safeStr (getOpt c "nombre") in
  let anio := safeStr (getOpt c "anio") in
  let id := safeStr (getOpt c "id") in
  let url := safeStr (getOpt c "url") in
  let detalles := safeList (getOpt c "detalles") in
  let* icon := safeIcon c in
  Returns
    (lit "     " ++ icon ++ lit " " ++ nombre
     ++ (if truthy (JStr anio) then lit " (" ++ anio ++ lit ")" else [])
     ++ (if truthy (JStr id) then nl ++ lit "       ID: " ++ id else [])
     ++ (if truthy (JStr url)
         then nl ++ qlit "       URL: <a href='" ++ url
              ++ qlit "' target='_blank' rel='noopener noreferrer'>"
              ++ url ++ lit "</a>"
         else [])
     ++ (if truthy (JNum (Z.of_nat (length detalles)))
         then nl ++ join nl
                (map (fun d => lit "       - " ++ toJSString d) detalles)
         else [])).

(** [`     ${o?.icon ? colorIcon(o.icon, o.color) : "-"}
      ${safeStr(o?.nombre)}`] *)
Definition renderObjetivo (o : JValue) : Outcome jsstring :=
  let* icon := safeIcon o in
  Returns (lit "     " ++ icon ++ lit " " ++ safeStr (getOpt o "nombre")).

Definition formatCertificaciones (data : JValue) : Outcome jsstring :=
  let title := toUpperCase (safeStr (getOpt data "title")) in
  let* obtenidas := mapM renderCert (safeList (getOpt data "obtenidas")) in
  let* enCurso := mapM renderCert (safeList (getOpt data "enPreparacion")) in
  let* objetivos :=
    mapM renderObjetivo (safeList (getOpt data "objetivos")) in
  Returns (nl ++ lit "=== " ++ title ++ lit " ===" ++ nl
           ++ nl
           ++ lit "• OBTENIDAS:" ++ nl
           ++ orElse (join (nl ++ nl) obtenidas) (lit "     -") ++ nl
           ++ nl
           ++ lit "• EN CURSO:" ++ nl
           ++ orElse (join (nl ++ nl) enCurso) (lit "     -") ++ nl
           ++ nl
           ++ lit "• OBJETIVOS:" ++ nl
           ++ orElse (join nl objetivos) (lit "     -") ++ nl).

(** The [linkify] local to [formatContacto]. *)
Definition contactLinkify (value : JValue) : jsstring :=
  let v := safeStr value in
  if startsWith v (lit "http://") || startsWith v (lit "https://")
  then qlit "<a href='" ++ v
       ++ qlit "' target='_blank' rel='noopener noreferrer'>"
       ++ v ++ lit "</a>"
  else v.

Definition contactItem (i : JValue) : Outcome jsstring :=
  let* icon := safeIcon i in
  let label := safeStr (getOpt i "label") in
  let value := contactLinkify (getOpt i "value") in
  Returns (lit "     " ++ icon ++ lit " " ++ label ++ lit ": " ++ value).

Definition contactDisp (d : JValue) : Outcome jsstring :=
  let* icon := safeIcon d in
  Returns (lit "     " ++ icon ++ lit " " ++ safeStr (getOpt d "text")).

Definition formatContacto (data : JValue) : Outcome jsstring :=
  let* itemLines := mapM contactItem (safeList (getOpt data "items")) in
  let items := join nl itemLines in
  let* dispLines :=
    mapM contactDisp (safeList (getOpt data "disponibilidad")) in
  let disp := join nl dispLines in
  let title := toUpperCase (safeStr (getOpt data "title")) in
  Returns (nl ++ lit "=== " ++ title ++ lit " ===" ++ nl
           ++ nl
           ++ orElse items (lit "     -") ++ nl
           ++ nl
           ++ (if truthy (JStr disp)
               then nl ++ lit "• DISPONIBILIDAD:" ++ nl ++ disp
               else [])
           ++ nl).

Definition textToHtml (text : jsstring) : jsstring :=
  replaceNewlines text.

End Formatters.

(* ================================================================== *)
(** ** core/hooks/useTerminal.ts                                       *)
(* ================================================================== *)

(** The static JSON files under [data/], which the hook imports. *)
Record Content : Type := {
  whoami : JValue;
  perfil : JValue;
  estudios : JValue;
  experiencia : JValue;
  skills : JValue;
  certificaciones : JValue;
  contacto : JValue;
  bannerDesktop : jsstring;
  bannerMobile : jsstring;
  bannerTablet : jsstring
}.

Inductive OutputType : Type := raw | html.

Record OutputItem : Type := {
  type : OutputType;
  content : jsstring
}.

Record TermState : Type := {
  output : list OutputItem;
  isTyping : bool;
  isTypingCommand : bool;
  hasInteracted : bool
}.

(** What the body of an asynchronous function of the hook can do to the
    state: call a setter, with a value or with an updater of the previous
    value, and wait on a timer. *)
Inductive Op : Type :=
  | SetOutput (value : list OutputItem)
  | UpdateOutput (updater : list OutputItem -> list OutputItem)
  | SetIsTyping (b : bool)
  | SetIsTypingCommand (b : bool)
  | SetHasInteracted (b : bool)
  | Sleep (ms : nat).

Definition applyOp (st : TermState) (op : Op) : TermState :=
  match op with
  | SetOutput value =>
      {| output := value; isTyping := isTyping st;
         isTypingCommand := isTypingCommand st;
         hasInteracted := hasInteracted st |}
  | UpdateOutput updater =>
      {| output := updater (output st); isTyping := isTyping st;
         isTypingCommand := isTypingCommand st;
         hasInteracted := hasInteracted st |}
  | SetIsTyping b =>
      {| output := output st; isTyping := b;
         isTypingCommand := isTypingCommand st;
         hasInteracted := hasInteracted st |}
  | SetIsTypingCommand b =>
      {| output := output st; isTyping := isTyping st;
         isTypingCommand := b;
         hasInteracted := hasInteracted st |}
  | SetHasInteracted b =>
      {| output := output st; isTyping := isTyping st;
         isTypingCommand := isTypingCommand st;
         hasInteracted := b |}
  | Sleep _ => st
  end.

(** The state once every operation has been applied. *)
Definition runOps (ops : list Op) (st : TermState) : TermState :=
  fold_left applyOp ops st.

(** The states right after each write to the output history. *)
Fixpoint outputWrites (ops : list Op) (st : TermState) : list TermState :=
  match ops with
  | [] => []
  | op :: rest =>
      let st' := applyOp st op in
      match op with
      | SetOutput _ | UpdateOutput _ => st' :: outputWrites rest st'
      | _ => outputWrites rest st'
      end
  end.

(** A function of the hook: the operations it performs, in order, and how
    it ends. *)
Definition Task (A : Type) : Type := (list Op * Outcome A)%type.

Definition done_ {A} (a : A) : Task A := ([], Returns a).

Definition emit (op : Op) : Task unit := ([op], Returns tt).

Definition lift {A} (o : Outcome A) : Task A := ([], o).

Definition tbind {A B} (m : Task A) (k : A -> Task B) : Task B :=
  match m with
  | (ops, Returns a) => let (ops', r) := k a in (ops ++ ops', r)
  | (ops, Throws e) => (ops, Throws e)
  end.

Notation "'do*' x ':=' m 'in' k" := (tbind m (fun x => k))
  (at level 10, x name, m at level 100, k at level 200) : js_scope.
Notation "m ';;' k" := (tbind m (fun _ => k))
  (at level 100, k at level 200, right associativity) : js_scope.

(** [for (let i = start; i < start + count; i++) body(i)] *)
Fixpoint forRange (start count : nat) (body : nat -> Task unit)
  : Task unit :=
  match count with
  | O => done_ tt
  | S count' => body start ;; forRange (S start) count' body
  end.

(** [updated = [...prev]; updated[updated.length - 1] = item]: on an empty
    history the index is -1, which is no element of the array. *)
Definition setLast (item : OutputItem) (prev : list OutputItem)
  : list OutputItem :=
  match prev with
  | [] => []
  | _ :: _ => <[Nat.pred (length prev) := item]> prev
  end.

Definition append (item : OutputItem) (prev : list OutputItem)
  : list OutputItem :=
  prev ++ [item].

Definition promptStart : jsstring :=
  qlit "<div class='font-mono text-sm leading-tight'>"
  ++ qlit "<div class='text-[var(--red-accent)]'>"
  ++ qlit "┌──(<span class='text-[var(--white-soft)]'>kali</span>"
  ++ qlit "<span class='text-[var(--red-soft)]'>㉿</span>"
  ++ qlit "<span class='text-[var(--white-soft)]'>portfolio</span>)-["
  ++ qlit "<span class='text-[var(--white-soft)]'>~</span>]</div>"
  ++ qlit "<div class='flex items-center'>"
  ++ qlit "<span class='text-[var(--red-accent)]'>└─$</span>"
  ++ qlit "<span class='ml-2 text-[var(--white-soft)]'>".

Definition promptEnd : jsstring := lit "</span></div></div>".

(** The in-progress entry showing [typed] after the prompt. *)
Definition promptEntry (typed : jsstring) : OutputItem :=
  {| type := html; content := promptStart ++ typed ++ promptEnd |}.

Section Terminal.
Context `{Host} (data : Content).

Definition initialBanner (width : Z) : jsstring :=
  if (width <? 640)%Z then bannerMobile data
  else if (width <? 1024)%Z then bannerTablet data
  else bannerDesktop data.

(** The state [useTerminal] starts from, [width] being
    [window.innerWidth]. *)
Definition initialState (width : Z) : TermState :=
  {| output := [ {| type := raw; content := initialBanner width |} ];
     isTyping := false;
     isTypingCommand := false;
     hasInteracted := false |}.

Definition clear : Task unit :=
  emit (SetOutput []).

Definition print (text : jsstring) (ty : OutputType) : Task unit :=
  emit (UpdateOutput (append {| type := ty; content := text |})).

Definition typeCommand (cmd : jsstring) : Task unit :=
  emit (SetIsTyping true) ;;
  emit (SetIsTypingCommand true) ;;
  emit (UpdateOutput (append (promptEntry []))) ;;
  forRange 0 (length cmd) (fun i =>
    let typed := take (i + 1) cmd in
    emit (UpdateOutput (setLast (promptEntry typed))) ;;
    emit (Sleep 40)) ;;
  emit (SetIsTyping false) ;;
  emit (SetIsTypingCommand false).

Definition generateAllInfo : Outcome jsstring :=
  let* w := formatWhoami (whoami data) in
  let* p := formatPerfil (perfil data) in
  let* e := formatEstudios (estudios data) in
  let* x := formatExperiencia (experiencia data) in
  let* s := formatSkills (skills data) in
  let* c := formatCertificaciones (certificaciones data) in
  let* k := formatContacto (contacto data) in
  Returns (nl
           ++ w ++ nl
           ++ sectionSeparator ++ nl
           ++ nl
           ++ p ++ nl
           ++ sectionSeparator ++ nl
           ++ nl
           ++ e ++ nl
           ++ sectionSeparator ++ nl
           ++ nl
           ++ x ++ nl
           ++ sectionSeparator ++ nl
           ++ nl
           ++ s ++ nl
           ++ sectionSeparator ++ nl
           ++ nl
           ++ c ++ nl
           ++ sectionSeparator ++ nl
           ++ nl
           ++ k ++ nl).

Definition runCommand (cmd : jsstring) : Task unit :=
  emit (SetHasInteracted true) ;;
  clear ;;
  typeCommand cmd ;;
  if bool_decide (cmd = lit "whoami") then
    do* text := lift (formatWhoami (whoami data)) in print text html
  else if bool_decide (cmd = lit "cat profile.txt") then
    do* text := lift (formatPerfil (perfil data)) in print text html
  else if bool_decide (cmd = lit "cat edu.txt") then
    do* text := lift (formatEstudios (estudios data)) in print text html
  else if bool_decide (cmd = lit "cat exp.txt") then
    do* text := lift (formatExperiencia (experiencia data)) in
    print text html
  else if bool_decide (cmd = lit "cat skills.txt") then
    do* text := lift (formatSkills (skills data)) in print text html
  else if bool_decide (cmd = lit "cat certs.txt") then
    do* text := lift (formatCertificaciones (certificaciones data)) in
    print text html
  else if bool_decide (cmd = lit "cat contact.txt") then
    do* text := lift (formatContacto (contacto data)) in print text html
  else if bool_decide (cmd = lit "whoami && cat *.txt") then
    do* text := lift generateAllInfo in print text html
  else
    print (textToHtml (lit "Comando no encontrado: " ++ cmd)) html.

End Terminal.

Definition opsOf {A} (t : Task A) : list Op := fst t.
Definition outcomeOf {A} (t : Task A) : Outcome A := snd t.

(** A run of [runCommand] in which the switch prints the outcome [text]. *)
Definition runPrinting (cmd : jsstring) (text : Outcome jsstring)
  : Task unit :=
  emit (SetHasInteracted true) ;;
  clear ;;
  typeCommand cmd ;;
  do* t := lift text in
  print t html.

(** The text the switch of [runCommand] prints for [cmd]. *)
Definition commandText `{Host} (data : Content) (cmd : jsstring)
  : Outcome jsstring :=
  if bool_decide (cmd = lit "whoami") then
    formatWhoami (whoami data)
  else if bool_decide (cmd = lit "cat profile.txt") then
    formatPerfil (perfil data)
  else if bool_decide (cmd = lit "cat edu.txt") then
    formatEstudios (estudios data)
  else if bool_decide (cmd = lit "cat exp.txt") then
    formatExperiencia (experiencia data)
  else if bool_decide (cmd = lit "cat skills.txt") then
    formatSkills (skills data)
  else if bool_decide (cmd = lit "cat certs.txt") then
    formatCertificaciones (certificaciones data)
  else if bool_decide (cmd = lit "cat contact.txt") then
    formatContacto (contacto data)
  else if bool_decide (cmd = lit "whoami && cat *.txt") then
    generateAllInfo data
  else
    Returns (textToHtml (lit "Comando no encontrado: " ++ cmd)).

(** The fixed command vocabulary of the router. *)
Definition vocabulary : list jsstring :=
  map lit
    [ "whoami"; "cat profile.txt"; "cat edu.txt"; "cat exp.txt";
      "cat skills.txt"; "cat certs.txt"; "cat contact.txt";
      "whoami && cat *.txt" ]%string.

Definition notFoundMarker : jsstring := lit "Comando no encontrado: ".

(** *** A host and a content store to evaluate examples on

    [asciiUpper] agrees with [toUpperCase] on ASCII strings, and
    [v8Source] is the text V8 prints for a built-in function. *)
Definition asciiUpper (s : jsstring) : jsstring :=
  map (fun c => if (97 <=? c) && (c <=? 122) then c - 32 else c) s.

Definition v8Source (key : jsstring) : jsstring :=
  lit "function "
  ++ (if bool_decide (key = lit "constructor") then lit "Object" else key)
  ++ lit "() { [native code] }".

Definition sampleHost : Host :=
  {| toUpperCase := asciiUpper; nativeFunctionSource := v8Source |}.

Definition obj (fields : list (string * JValue)) : JValue :=
  JObj (map (fun kv => (lit (fst kv), snd kv)) fields).

Definition str (s : string) : JValue := JStr (lit s).

Definition sampleItem (text : string) : JValue :=
  obj [ ("icon", str "[+]"); ("color", str "green"); ("text", str text) ]%string.

Definition sampleContent : Content :=
  {| whoami := obj [ ("name", str "Ada"); ("role", str "Pentester");
                     ("text", str "Hola") ]%string;
     perfil := obj [ ("title", str "Perfil"); ("description", str "Red Team");
                     ("specialization", JArr [sampleItem "Web"]);
                     ("goals", JArr [sampleItem "OSCP"]) ]%string;
     estudios := obj [ ("title", str "Estudios"); ("items", JArr []) ]%string;
     experiencia :=
       obj [ ("title", str "Experiencia"); ("items", JArr []) ]%string;
     skills :=
       obj [ ("title", str "Skills");
             ("categorias",
              JArr [ obj [ ("nombre", str "Security");
                           ("items", JArr [ obj [("text", str "nmap")] ])
                         ] ]) ]%string;
     certificaciones := obj [ ("title", str "Certificaciones") ]%string;
     contacto :=
       obj [ ("title", str "Contacto");
             ("items",
              JArr [ obj [ ("icon", str "[@]"); ("color", str "blue");
                           ("label", str "Web");
                           ("value", str "https://example.org") ] ]);
             ("disponibilidad", JArr []) ]%string;
     bannerDesktop := lit "DESKTOP";
     bannerMobile := lit "MOBILE";
     bannerTablet := lit "TABLET" |}.

(** The operations of the loop of [typeCommand], iterations [start] to
    [start + count - 1]. *)
Definition typingSteps (cmd : jsstring) (start count : nat) : list Op :=
  concat (map (fun i => [ UpdateOutput (setLast (promptEntry (take (i + 1) cmd)));
                          Sleep 40 ])
              (seq start count)).

Definition withOutput (st : TermState) (out : list OutputItem) : TermState :=
  {| output := out; isTyping := isTyping st;
     isTypingCommand := isTypingCommand st;
     hasInteracted := hasInteracted st |}.




(** The composite output as the specification words it: the seven outputs
    joined by the separator string and nothing more. *)
Definition joinedBySeparator `{Host} (data : Content) : Outcome jsstring :=
  let* w := formatWhoami (whoami data) in
  let* p := formatPerfil (perfil data) in
  let* e := formatEstudios (estudios data) in
  let* x := formatExperiencia (experiencia data) in
  let* s := formatSkills (skills data) in
  let* c := formatCertificaciones (certificaciones data) in
  let* k := formatContacto (contacto data) in
  Returns (join sectionSeparator [w; p; e; x; s; c; k]).

(** The sub-list [field] of [record] is missing, is no array, or is an
    empty array. *)
Definition noItems (record : JValue) (field : string) : Prop :=
  safeList (getOpt record field) = [].

(** The markup [colorIcon] produces for a given colour text. *)
Definition span (hex icon : jsstring) : jsstring :=
  qlit "<span style='color:" ++ hex ++ qlit "'>" ++ icon ++ lit "</span>".


(* ================================================================== *)
(** ** Properties                                                      *)
(* ================================================================== *)

Example lit_ascii : lit "Rol: " = [82; 111; 108; 58; 32].
Proof. reflexivity. Qed.

Example lit_bullet : lit "•" = [8226].
Proof. reflexivity. Qed.

Example qlit_quotes : qlit "a='b'" = [97; 61; 34; 98; 34].
Proof. reflexivity. Qed.

Example decimal_year : decimal 2024 = lit "2024" /\ decimal (-7) = lit "-7"
                       /\ decimal 0 = lit "0".
Proof. repeat split; reflexivity. Qed.

Example skills_sample :
  formatSkills (H := sampleHost) (skills sampleContent)
  = Returns (nl ++ lit "=== SKILLS ===" ++ nl
             ++ nl ++ lit "Security" ++ nl
             ++ lit "- nmap" ++ nl
             ++ nl).
Proof. vm_compute. reflexivity. Qed.

(** *** Strings *)

Lemma startsWith_spec (s pre : jsstring) :
  startsWith s pre = true <-> exists post, s = pre ++ post.
Proof.
  revert s; induction pre as [|p pre IH]; intros s; simpl.
  - split; [intros _; by exists s | done].
  - destruct s as [|c s]; simpl.
    + split; [done | intros [post Hpost]; discriminate].
    + rewrite andb_true_iff, N.eqb_eq, IH. split.
      * intros [-> [post ->]]. by exists post.
      * intros [post Hpost]. injection Hpost as -> ->. eauto.
Qed.

Lemma includes_spec (s sub : jsstring) :
  includes s sub = true <-> exists pre post, s = pre ++ sub ++ post.
Proof.
  induction s as [|c s IH]; simpl.
  - rewrite orb_false_r, startsWith_spec. split.
    + intros [post Hpost]. by exists [], post.
    + intros (pre & post & Heq). symmetry in Heq.
      apply app_eq_nil in Heq as [-> Heq]. by exists post.
  - rewrite orb_true_iff, startsWith_spec, IH. split.
    + intros [[post Hpost] | (pre & post & ->)].
      * by exists [], post.
      * by exists (c :: pre), post.
    + intros (pre & post & Heq). destruct pre as [|c' pre]; simpl in Heq.
      * left. by exists post.
      * right. injection Heq as -> ->. by exists pre, post.
Qed.

Lemma replaceNewlines_app (a b : jsstring) :
  replaceNewlines (a ++ b) = replaceNewlines a ++ replaceNewlines b.
Proof.
  induction a as [|c a IH]; simpl; [done|].
  by rewrite IH, app_assoc.
Qed.

Lemma replaceNewlines_id (s : jsstring) :
  10 ∉ s -> replaceNewlines s = s.
Proof.
  induction s as [|c s IH]; simpl; [done|].
  rewrite not_elem_of_cons. intros [Hc Hs].
  destruct (N.eqb_spec c 10) as [->|_]; [done|].
  simpl. by rewrite IH.
Qed.

Lemma replaceNewlines_no_newline (s : jsstring) :
  10 ∉ replaceNewlines s.
Proof.
  induction s as [|c s IH]; simpl.
  - apply not_elem_of_nil.
  - rewrite not_elem_of_app. split; [|done].
    destruct (N.eqb_spec c 10) as [->|Hc].
    + change (lit "<br>") with [60; 98; 114; 62].
      rewrite !not_elem_of_cons. repeat split; try done.
      apply not_elem_of_nil.
    + rewrite not_elem_of_cons. split; [done | apply not_elem_of_nil].
Qed.

(** *** Tasks *)

Lemma forRange_unfold (body : nat -> Task unit) (f : nat -> list Op)
    (start count : nat) :
  (forall i, body i = (f i, Returns tt)) ->
  forRange start count body
  = (concat (map f (seq start count)), Returns tt).
Proof.
  intros Hbody. revert start.
  induction count as [|count IH]; intros start; simpl; [done|].
  by rewrite Hbody, IH.
Qed.

Lemma runOps_app (ops1 ops2 : list Op) (st : TermState) :
  runOps (ops1 ++ ops2) st = runOps ops2 (runOps ops1 st).
Proof. apply fold_left_app. Qed.

Lemma outputWrites_app (ops1 ops2 : list Op) (st : TermState) :
  outputWrites (ops1 ++ ops2) st
  = outputWrites ops1 st ++ outputWrites ops2 (runOps ops1 st).
Proof.
  revert st; induction ops1 as [|op ops1 IH]; intros st; simpl; [done|].
  rewrite IH. by destruct op.
Qed.

Lemma typeCommand_unfold (cmd : jsstring) :
  typeCommand cmd
  = ([ SetIsTyping true; SetIsTypingCommand true;
       UpdateOutput (append (promptEntry [])) ]
     ++ typingSteps cmd 0 (length cmd)
     ++ [ SetIsTyping false; SetIsTypingCommand false ],
     Returns tt).
Proof.
  unfold typeCommand, typingSteps.
  rewrite (forRange_unfold _
    (fun i => [ UpdateOutput (setLast (promptEntry (take (i + 1) cmd)));
                Sleep 40 ])) by done.
  reflexivity.
Qed.

Lemma runCommand_runPrinting `{Host} (data : Content) (cmd : jsstring) :
  runCommand data cmd = runPrinting cmd (commandText data cmd).
Proof.
  unfold runCommand, runPrinting, commandText.
  repeat (case_bool_decide; [reflexivity|]).
  reflexivity.
Qed.

Lemma runCommand_unfold `{Host} (data : Content) (cmd : jsstring) :
  runCommand data cmd
  = ([SetHasInteracted true] ++ opsOf clear ++ opsOf (typeCommand cmd)
     ++ match commandText data cmd with
        | Returns text => opsOf (print text html)
        | Throws _ => []
        end,
     match commandText data cmd with
     | Returns _ => Returns tt
     | Throws e => Throws e
     end).
Proof.
  rewrite runCommand_runPrinting. unfold runPrinting.
  rewrite typeCommand_unfold.
  destruct (commandText data cmd) as [text|e]; simpl;
    by rewrite <- !app_assoc.
Qed.

Lemma setLast_snoc (item x : OutputItem) (pre : list OutputItem) :
  setLast item (pre ++ [x]) = pre ++ [item].
Proof.
  unfold setLast. destruct (pre ++ [x]) as [|y l] eqn:E.
  - by destruct pre.
  - rewrite <- E, length_app, Nat.add_1_r. simpl.
    rewrite insert_app_r_alt by done. by rewrite Nat.sub_diag.
Qed.

Lemma withOutput_same (st : TermState) : withOutput st (output st) = st.
Proof. by destruct st. Qed.

Lemma typingSteps_S (cmd : jsstring) (start count : nat) :
  typingSteps cmd start (S count)
  = [ UpdateOutput (setLast (promptEntry (take (S start) cmd))); Sleep 40 ]
    ++ typingSteps cmd (S start) count.
Proof. unfold typingSteps. simpl. by rewrite Nat.add_1_r. Qed.

(** The loop rewrites the last entry with one more character at each
    iteration and touches nothing else. *)
Lemma typingSteps_writes (cmd : jsstring) (pre : list OutputItem)
    (count start : nat) (st : TermState) :
  output st = pre ++ [promptEntry (take start cmd)] ->
  outputWrites (typingSteps cmd start count) st
  = map (fun k => withOutput st (pre ++ [promptEntry (take k cmd)]))
        (seq (S start) count)
  /\ runOps (typingSteps cmd start count) st
     = withOutput st (pre ++ [promptEntry (take (start + count) cmd)]).
Proof.
  revert start st. induction count as [|count IH]; intros start st Hout.
  - simpl. rewrite Nat.add_0_r, <- Hout. by rewrite withOutput_same.
  - rewrite typingSteps_S. cbn [outputWrites runOps fold_left app].
    set (st' := applyOp (applyOp st _) (Sleep 40)).
    assert (Hst' : st' = withOutput st
                           (pre ++ [promptEntry (take (S start) cmd)])).
    { subst st'. unfold withOutput. simpl.
      by rewrite Hout, setLast_snoc. }
    destruct (IH (S start) st') as [Hw Hr].
    { by rewrite Hst'. }
    fold (runOps (typingSteps cmd (S start) count) st').
    replace (applyOp st (UpdateOutput
               (setLast (promptEntry (take (S start) cmd))))) with st'
      by done.
    rewrite Hw, Hr, Hst', Nat.add_succ_r. done.
Qed.

Lemma typeCommand_states (cmd : jsstring) (st : TermState) :
  let ops := opsOf (typeCommand cmd) in
  let typing := {| output := output st ++ [promptEntry []];
                   isTyping := true; isTypingCommand := true;
                   hasInteracted := hasInteracted st |} in
  outputWrites ops st
  = map (fun k => withOutput typing (output st ++ [promptEntry (take k cmd)]))
        (seq 0 (S (length cmd)))
  /\ runOps ops st
     = {| output := output st ++ [promptEntry cmd];
          isTyping := false; isTypingCommand := false;
          hasInteracted := hasInteracted st |}.
Proof.
  intros ops typing. subst ops. rewrite typeCommand_unfold.
  cbn [opsOf fst].
  destruct (typingSteps_writes cmd (output st) (length cmd) 0 typing)
    as [Hw Hr]; [done|].
  split.
  - rewrite outputWrites_app, outputWrites_app.
    change (runOps _ st) with typing at 1.
    rewrite Hw. simpl. by rewrite app_nil_r.
  - rewrite runOps_app, runOps_app.
    change (runOps _ st) with typing at 1.
    rewrite Hr. simpl. by rewrite firstn_all.
Qed.

Ltac not_in_vocabulary :=
  let Hin := fresh "Hin" in
  intros Hin; vm_compute in Hin;
  repeat (apply elem_of_cons in Hin as [Hin|Hin]; [discriminate Hin|]);
  by apply elem_of_nil in Hin.

Lemma commandText_not_found `{Host} (data : Content) (cmd : jsstring) :
  cmd ∉ vocabulary ->
  commandText data cmd = Returns (textToHtml (notFoundMarker ++ cmd)).
Proof.
  intros Hcmd. unfold commandText.
  repeat (case_bool_decide as Heq;
          [ exfalso; apply Hcmd; rewrite Heq; unfold vocabulary;
            set_solver | clear Heq ]).
  done.
Qed.

(** C9. [clear] empties the output history and changes nothing else: the
    three flags keep the values they had. *)
Theorem clear_only_empties_output (st : TermState) :
  let st' := runOps (opsOf clear) st in
  outcomeOf clear = Returns tt
  /\ output st' = []
  /\ isTyping st' = isTyping st
  /\ isTypingCommand st' = isTypingCommand st
  /\ hasInteracted st' = hasInteracted st.
Proof. by cbv. Qed.

(** C10. Before any command has run, the history holds exactly one entry,
    of kind raw, whose content is the banner chosen by the window width
    (mobile below 640, tablet below 1024, desktop otherwise), and the three
    flags are false. *)
Theorem initial_state_shows_banner (data : Content) (width : Z) :
  let st := initialState data width in
  output st = [ {| type := raw; content := initialBanner data width |} ]
  /\ output st <> []
  /\ ((width < 640)%Z -> initialBanner data width = bannerMobile data)
  /\ ((640 <= width < 1024)%Z -> initialBanner data width = bannerTablet data)
  /\ ((1024 <= width)%Z -> initialBanner data width = bannerDesktop data)
  /\ isTyping st = false
  /\ isTypingCommand st = false
  /\ hasInteracted st = false.
Proof.
  unfold initialState, initialBanner; simpl.
  repeat split; try done; intros Hw.
  - apply Z.ltb_lt in Hw. by rewrite Hw.
  - destruct Hw as [Hlo Hhi].
    apply Z.ltb_ge in Hlo. apply Z.ltb_lt in Hhi. by rewrite Hlo, Hhi.
  - assert (Hlo : (640 <= width)%Z) by lia.
    apply Z.ltb_ge in Hlo, Hw. by rewrite Hlo, Hw.
Qed.

Lemma initial_state_shows_banner_witness :
  initialBanner sampleContent 375 = lit "MOBILE"
  /\ initialBanner sampleContent 800 = lit "TABLET"
  /\ initialBanner sampleContent 1024 = lit "DESKTOP".
Proof.
  destruct (initial_state_shows_banner sampleContent 375)
    as (_ & _ & Hm & _).
  destruct (initial_state_shows_banner sampleContent 800)
    as (_ & _ & _ & Ht & _).
  destruct (initial_state_shows_banner sampleContent 1024)
    as (_ & _ & _ & _ & Hd & _).
  split; [apply Hm; lia | split; [apply Ht; lia | apply Hd; lia]].
Defined.



Lemma runCommand_final `{Host} (data : Content)
    (cmd : jsstring) (st : TermState) :
  runOps (opsOf (runCommand data cmd)) st
  = {| output := promptEntry cmd
                 :: match commandText data cmd with
                    | Returns text => [ {| type := html; content := text |} ]
                    | Throws _ => []
                    end;
       isTyping := false;
       isTypingCommand := false;
       hasInteracted := true |}.
Proof.
  rewrite runCommand_unfold. cbn [opsOf fst].
  fold (opsOf clear). fold (opsOf (typeCommand cmd)).
  rewrite !runOps_app.
  destruct (typeCommand_states cmd
              (runOps (opsOf clear) (runOps [SetHasInteracted true] st)))
    as [_ Hr].
  unfold opsOf in *. rewrite Hr.
  by destruct (commandText data cmd).
Qed.

Lemma runCommand_outcome `{Host} (data : Content) (cmd : jsstring) :
  outcomeOf (runCommand data cmd)
  = match commandText data cmd with
    | Returns _ => Returns tt
    | Throws e => Throws e
    end.
Proof. by rewrite runCommand_unfold. Qed.

(** C4. One run of [runCommand] sets hasInteracted, then empties the
    history, then plays the typing animation of the command, then prints the
    text the switch selects for it (when its formatter returns one).
    Whatever the history held before, afterwards it holds the prompt line of
    this command followed by its result entry, and nothing else. *)
Theorem runCommand_clears_types_prints `{Host} (data : Content)
    (cmd : jsstring) (st : TermState) :
  let ops := opsOf (runCommand data cmd) in
  ops = [SetHasInteracted true]
        ++ [SetOutput []]
        ++ opsOf (typeCommand cmd)
        ++ match commandText data cmd with
           | Returns text =>
               [UpdateOutput (append {| type := html; content := text |})]
           | Throws _ => []
           end
  /\ output (runOps ops st)
     = promptEntry cmd
       :: match commandText data cmd with
          | Returns text => [ {| type := html; content := text |} ]
          | Throws _ => []
          end
  /\ hasInteracted (runOps ops st) = true
  /\ isTyping (runOps ops st) = false
  /\ isTypingCommand (runOps ops st) = false.
Proof.
  intros ops. subst ops. rewrite runCommand_final.
  split; [|done]. by rewrite runCommand_unfold.
Qed.

(** C2. The router compares the input with the eight command strings by
    exact, case-sensitive equality: run on one of them, [runCommand] prints
    the outcome of the corresponding formatter on its content record, and
    run on any other string, case variants and partial matches among them,
    it prints the not-found message. *)
Theorem router_matches_exactly `{Host} (data : Content) :
  runCommand data (lit "whoami")
  = runPrinting (lit "whoami") (formatWhoami (whoami data))
  /\ runCommand data (lit "cat profile.txt")
     = runPrinting (lit "cat profile.txt") (formatPerfil (perfil data))
  /\ runCommand data (lit "cat edu.txt")
     = runPrinting (lit "cat edu.txt") (formatEstudios (estudios data))
  /\ runCommand data (lit "cat exp.txt")
     = runPrinting (lit "cat exp.txt")
         (formatExperiencia (experiencia data))
  /\ runCommand data (lit "cat skills.txt")
     = runPrinting (lit "cat skills.txt") (formatSkills (skills data))
  /\ runCommand data (lit "cat certs.txt")
     = runPrinting (lit "cat certs.txt")
         (formatCertificaciones (certificaciones data))
  /\ runCommand data (lit "cat contact.txt")
     = runPrinting (lit "cat contact.txt") (formatContacto (contacto data))
  /\ runCommand data (lit "whoami && cat *.txt")
     = runPrinting (lit "whoami && cat *.txt") (generateAllInfo data)
  /\ (forall cmd, cmd ∉ vocabulary ->
        runCommand data cmd
        = runPrinting cmd (Returns (textToHtml (notFoundMarker ++ cmd))))
  /\ (lit "WHOAMI" ∉ vocabulary)
  /\ (lit "Cat Profile.txt" ∉ vocabulary)
  /\ (lit "whoam" ∉ vocabulary)
  /\ (lit "whoami " ∉ vocabulary)
  /\ (lit "cat" ∉ vocabulary)
  /\ (lit "cat *.txt" ∉ vocabulary).
Proof.
  repeat split; try reflexivity; try not_in_vocabulary.
  intros cmd Hcmd.
  by rewrite runCommand_runPrinting, commandText_not_found.
Qed.

Lemma router_matches_exactly_witness :
  runCommand (H := sampleHost) sampleContent (lit "WHOAMI")
  = runPrinting (lit "WHOAMI")
      (Returns (lit "Comando no encontrado: WHOAMI"))
  /\ runCommand (H := sampleHost) sampleContent (lit "whoam")
     = runPrinting (lit "whoam")
         (Returns (lit "Comando no encontrado: whoam")).
Proof.
  destruct (router_matches_exactly (H := sampleHost) sampleContent)
    as (_ & _ & _ & _ & _ & _ & _ & _ & Hnf & Hupper & _ & Hpart & _).
  split.
  - rewrite (Hnf (lit "WHOAMI") Hupper). reflexivity.
  - rewrite (Hnf (lit "whoam") Hpart). reflexivity.
Defined.

(** C3, as stated, fails on an input that holds a newline: the newline of
    the input is converted with the rest of the message, so the entry no
    longer includes the input verbatim. *)
Lemma not_found_rewrites_newline_input :
  let cmd := lit "a" ++ nl ++ lit "b" in
  let st := runOps (opsOf (runCommand (H := sampleHost) sampleContent cmd))
                   (initialState sampleContent 1280) in
  (cmd ∉ vocabulary)
  /\ last (output st)
     = Some {| type := html;
               content := lit "Comando no encontrado: a<br>b" |}
  /\ includes (lit "Comando no encontrado: a<br>b") cmd = false.
Proof.
  split; [not_in_vocabulary|]. split; vm_compute; reflexivity.
Qed.

(** C3, amended. For an input outside the vocabulary, [runCommand] returns
    and leaves, after the prompt line, one html entry: the marker
    [Comando no encontrado: ] followed by the input in which every newline
    is replaced by [<br>].  The entry holds no newline, and it includes the
    input verbatim whenever the input holds no newline. *)
Theorem not_found_entry `{Host} (data : Content) (cmd : jsstring)
    (st : TermState) :
  cmd ∉ vocabulary ->
  let text := textToHtml (notFoundMarker ++ cmd) in
  outcomeOf (runCommand data cmd) = Returns tt
  /\ output (runOps (opsOf (runCommand data cmd)) st)
     = [ promptEntry cmd; {| type := html; content := text |} ]
  /\ text = notFoundMarker ++ textToHtml cmd
  /\ (10 ∉ text)
  /\ includes text notFoundMarker = true
  /\ (10 ∉ cmd -> includes text cmd = true).
Proof.
  intros Hcmd text.
  rewrite runCommand_final, runCommand_outcome.
  rewrite (commandText_not_found data cmd Hcmd). fold text.
  assert (Htext : text = notFoundMarker ++ textToHtml cmd).
  { subst text. unfold textToHtml. by rewrite replaceNewlines_app. }
  split; [done|]. split; [done|]. split; [done|].
  split; [apply replaceNewlines_no_newline|]. split.
  - apply includes_spec. exists [], (textToHtml cmd).
    by rewrite Htext.
  - intros Hnl. apply includes_spec. exists notFoundMarker, [].
    rewrite Htext, app_nil_r. unfold textToHtml.
    by rewrite replaceNewlines_id.
Qed.

Lemma not_found_entry_witness :
  let text := lit "Comando no encontrado: ls -la" in
  output (runOps (opsOf (runCommand (H := sampleHost) sampleContent
                           (lit "ls -la")))
                 (initialState sampleContent 1280))
  = [ promptEntry (lit "ls -la"); {| type := html; content := text |} ]
  /\ includes text (lit "ls -la") = true.
Proof.
  assert (Hcmd : lit "ls -la" ∉ vocabulary) by not_in_vocabulary.
  destruct (not_found_entry (H := sampleHost) sampleContent (lit "ls -la")
              (initialState sampleContent 1280) Hcmd)
    as (_ & Hout & _ & _ & _ & Hinc).
  split; [exact Hout|].
  apply Hinc. intros Hin. vm_compute in Hin.
  repeat (apply elem_of_cons in Hin as [Hin|Hin]; [discriminate Hin|]).
  by apply elem_of_nil in Hin.
Defined.

(** C1, as stated, fails: the composite output is not the seven outputs
    joined by the bare separator string. *)
Lemma all_info_is_not_the_plain_join :
  (exists out, joinedBySeparator (H := sampleHost) sampleContent = Returns out)
  /\ generateAllInfo (H := sampleHost) sampleContent
     <> joinedBySeparator (H := sampleHost) sampleContent.
Proof.
  split.
  - eexists. vm_compute. reflexivity.
  - intros Heq. vm_compute in Heq. discriminate Heq.
Qed.

(** C1, amended. When the seven formatters return, the composite output is
    a newline, then their outputs in the order whoami, perfil, estudios,
    experiencia, skills, certificaciones, contacto, each adjacent pair
    separated by a newline, the separator string and two newlines, then a
    final newline. *)
Theorem all_info_layout `{Host} (data : Content)
    (w p e x s c k : jsstring) :
  formatWhoami (whoami data) = Returns w ->
  formatPerfil (perfil data) = Returns p ->
  formatEstudios (estudios data) = Returns e ->
  formatExperiencia (experiencia data) = Returns x ->
  formatSkills (skills data) = Returns s ->
  formatCertificaciones (certificaciones data) = Returns c ->
  formatContacto (contacto data) = Returns k ->
  generateAllInfo data
  = Returns (nl ++ join (nl ++ sectionSeparator ++ nl ++ nl)
                     [w; p; e; x; s; c; k]
             ++ nl).
Proof.
  intros Hw Hp He Hx Hs Hc Hk. unfold generateAllInfo.
  rewrite Hw, Hp, He, Hx, Hs, Hc, Hk. cbn [obind join].
  f_equal. by rewrite <- !app_assoc.
Qed.

Lemma all_info_layout_witness :
  exists w p e x s c k,
    formatWhoami (whoami sampleContent) = Returns w
    /\ formatPerfil (H := sampleHost) (perfil sampleContent) = Returns p
    /\ formatEstudios (H := sampleHost) (estudios sampleContent) = Returns e
    /\ formatExperiencia (H := sampleHost) (experiencia sampleContent)
       = Returns x
    /\ formatSkills (H := sampleHost) (skills sampleContent) = Returns s
    /\ formatCertificaciones (H := sampleHost) (certificaciones sampleContent)
       = Returns c
    /\ formatContacto (H := sampleHost) (contacto sampleContent) = Returns k
    /\ generateAllInfo (H := sampleHost) sampleContent
       = Returns (nl ++ join (nl ++ sectionSeparator ++ nl ++ nl)
                          [w; p; e; x; s; c; k]
                  ++ nl).
Proof.
  do 7 eexists.
  do 7 (split; [vm_compute; reflexivity|]).
  apply (all_info_layout (H := sampleHost) sampleContent);
    vm_compute; reflexivity.
Defined.

(** *** colorIcon *)

Lemma colorIcon_span `{Host} (icon color : JValue) :
  colorIcon icon color
  = span (let found := literalLookup colors (toJSString color) in
          if memberTruthy found then memberToString found else lit "#ffffff")
         (toJSString icon).
Proof. reflexivity. Qed.

(** The six colour names map to their hex values. *)
Lemma colorIcon_known `{Host} (icon : JValue) :
  colorIcon icon (str "green") = span (lit "#00ff00") (toJSString icon)
  /\ colorIcon icon (str "orange") = span (lit "#ff9900") (toJSString icon)
  /\ colorIcon icon (str "red") = span (lit "#ff3333") (toJSString icon)
  /\ colorIcon icon (str "blue") = span (lit "#3399ff") (toJSString icon)
  /\ colorIcon icon (str "yellow") = span (lit "#ffff66") (toJSString icon)
  /\ colorIcon icon (str "white") = span (lit "#ffffff") (toJSString icon).
Proof. repeat split; by rewrite colorIcon_span. Qed.

(** A key that is neither one of the six names nor a member inherited from
    [Object.prototype] falls back to white. *)
Lemma colorIcon_fallback `{Host} (icon color : JValue) :
  colors !! toJSString color = None ->
  toJSString color <> lit "__proto__" ->
  toJSString color ∉ objectPrototypeMethods ->
  colorIcon icon color = span (lit "#ffffff") (toJSString icon).
Proof.
  intros Hown Hproto Hmeth. rewrite colorIcon_span. cbn zeta.
  unfold literalLookup. rewrite Hown.
  by rewrite bool_decide_eq_false_2, bool_decide_eq_false_2.
Qed.

Lemma colorIcon_missing_or_empty `{Host} (icon : JValue) :
  colorIcon icon JUndefined = span (lit "#ffffff") (toJSString icon)
  /\ colorIcon icon (JStr []) = span (lit "#ffffff") (toJSString icon)
  /\ colorIcon icon (str "purple") = span (lit "#ffffff") (toJSString icon).
Proof. repeat split; by rewrite colorIcon_span. Qed.

(** C8. The fallback misses the keys an object literal inherits: for the
    colour key [__proto__] the lookup yields [Object.prototype], which is
    truthy, and the span is styled with its text instead of [#ffffff]; for
    the key [constructor] it is styled with the source text of a built-in
    function. *)
Theorem colorIcon_inherited_key_not_white `{Host} (icon : JValue) :
  (lit "__proto__" ∉ map lit ["green"; "orange"; "red"; "blue"; "yellow";
                              "white"]%string)
  /\ colorIcon icon (str "__proto__")
     = span (lit "[object Object]") (toJSString icon)
  /\ colorIcon icon (str "__proto__")
     <> span (lit "#ffffff") (toJSString icon)
  /\ colorIcon icon (str "constructor")
     = span (nativeFunctionSource (lit "constructor")) (toJSString icon).
Proof.
  split; [not_in_vocabulary|].
  split; [by rewrite colorIcon_span|].
  split; [|by rewrite colorIcon_span].
  rewrite colorIcon_span. intros Heq. vm_compute in Heq.
  discriminate Heq.
Qed.

(** *** The defensive formatters *)







Lemma noItems_missing (props : list (jsstring * JValue)) (field : string) :
  ownProp props (lit field) = JUndefined -> noItems (JObj props) field.
Proof. unfold noItems. simpl. by intros ->. Qed.

Lemma noItems_empty (props : list (jsstring * JValue)) (field : string) :
  ownProp props (lit field) = JArr [] -> noItems (JObj props) field.
Proof. unfold noItems. simpl. by intros ->. Qed.





